(** * The sketch page: static route enumeration and the per-document pipeline

    A shallow embedding of [src/pages/sketches/[slug].js]: [getStaticPaths]
    lists the content directory [data/sketches] and derives one slug per
    directory entry; [getStaticProps] reads [<slug>.mdx] back, splits its
    front matter, compiles the body and estimates the reading time.

    JavaScript strings are modelled by [string]; the only pattern the code
    searches for, [".mdx"], is ASCII, so the first occurrence in the byte
    string is the first occurrence in the UTF-16 string.  Thrown exceptions
    are modelled by the [Throw] outcome of [result]. *)

From Stdlib Require Import String Ascii List Arith Lia.
From stdpp Require Import base option list gmap strings.

Local Open Scope stdpp_scope.

(** ** Outcomes of calls that may throw *)

(** [err.code] of a Node system error, for the failures of the file system
    states modelled below. *)
Inductive errno := ENOENT | EACCES | EISDIR.

(** What the code can throw: a system error of the [fs] module raised on a
    path (with its [err.path]), a system error raised while reading a file
    that was opened (it has a code and names no path), or an error of one
    of the two libraries. *)
Inductive exn :=
  | FsError (code : errno) (path : string)
  | ReadError (code : errno)
  | ParseError (reason : string)
  | CompileError (tag : string).

Inductive result (A : Type) :=
  | Ok (a : A)
  | Throw (e : exn).
Arguments Ok {A} a.
Arguments Throw {A} e.

#[global] Instance result_ret : MRet result := fun _ a => Ok a.
#[global] Instance result_bind : MBind result := fun _ _ k r =>
  match r with
  | Ok a => k a
  | Throw e => Throw e
  end.

#[global] Instance errno_eq_dec : EqDecision errno.
Proof. solve_decision. Defined.
#[global] Instance exn_eq_dec : EqDecision exn.
Proof. solve_decision. Defined.

(** ** JavaScript string operations used by the page *)

Module JsString.

(** [s.startsWith(pat)] *)
Fixpoint startsWith (s pat : string) {struct pat} : bool :=
  match pat, s with
  | "", _ => true
  | String _ _, "" => false
  | String a pat', String b s' =>
      if decide (a = b) then startsWith s' pat' else false
  end.

(** [s.slice(n)] for [0 <= n] *)
Fixpoint slice (s : string) (n : nat) : string :=
  match n, s with
  | 0, _ => s
  | S _, "" => ""
  | S n', String _ s' => slice s' n'
  end.

(** [s.includes(pat)] *)
Fixpoint includes (s pat : string) : bool :=
  startsWith s pat ||
  match s with
  | "" => false
  | String _ s' => includes s' pat
  end.

(** [s.endsWith(pat)]: some suffix of [s] is [pat]. *)
Fixpoint endsWith (s pat : string) : bool :=
  if decide (s = pat) then true
  else match s with
       | "" => false
       | String _ s' => endsWith s' pat
       end.

(** [s.split(c)] for a one-character separator: the pieces between
    separators, empty ones included. *)
Fixpoint split (s : string) (c : ascii) : list string :=
  match s with
  | "" => [""]
  | String a s' =>
      if decide (a = c) then "" :: split s' c
      else match split s' c with
           | piece :: pieces => String a piece :: pieces
           | [] => [String a ""]
           end
  end.

(** [pieces.join(c)] *)
Fixpoint join (pieces : list string) (c : ascii) : string :=
  match pieces with
  | [] => ""
  | [piece] => piece
  | piece :: pieces' => piece +:+ String c (join pieces' c)
  end.

(** [s.trimStart()], [s.trimEnd()] and [s.trim()] on ASCII white space. *)
Fixpoint trimStart (s : string) : string :=
  match s with
  | "" => ""
  | String a s' => if Ascii.is_space a then trimStart s' else s
  end.
Definition trimEnd (s : string) : string :=
  String.rev (trimStart (String.rev s)).
Definition trim (s : string) : string := trimEnd (trimStart s).

(** [s.replace(pat, rep)] with a string pattern: the first occurrence of
    [pat] is replaced, later ones stay.  The replacement is taken
    literally (the page passes the empty string, which has no [$]
    patterns). *)
Fixpoint replace (s pat rep : string) : string :=
  if startsWith s pat then rep +:+ slice s (String.length pat)
  else match s with
       | "" => ""
       | String c s' => String c (replace s' pat rep)
       end.

End JsString.

(** ** Node's [path.join] (POSIX flavour) *)

Module Path.

Definition sep : ascii := "/"%char.

(** Does the string contain a separator? *)
Fixpoint has_sep (s : string) : bool :=
  match s with
  | "" => false
  | String c s' => if decide (c = sep) then true else has_sep s'
  end.

(** One step of the normalisation, on the reversed list of segments kept
    so far: empty and [.] segments vanish, [..] removes the segment
    before it, and stays when there is none to remove in a relative
    path. *)
Definition push (allowAboveRoot : bool) (kept : list string) (seg : string)
  : list string :=
  if decide (seg = "" ∨ seg = ".") then kept
  else if decide (seg = "..") then
    match kept with
    | top :: below => if decide (top = "..") then seg :: kept else below
    | [] => if allowAboveRoot then [seg] else []
    end
  else seg :: kept.

Definition normalizeSegments (allowAboveRoot : bool) (segs : list string)
  : list string :=
  rev (fold_left (push allowAboveRoot) segs []).

(** [path.normalize(p)] *)
Definition normalize (p : string) : string :=
  if decide (p = "") then "."
  else
    let isAbsolute := JsString.startsWith p "/" in
    let trailingSeparator := JsString.endsWith p "/" in
    let body := JsString.join (normalizeSegments (negb isAbsolute) (JsString.split p sep)) sep in
    if decide (body = "") then
      if isAbsolute then "/" else if trailingSeparator then "./" else "."
    else
      let body := if trailingSeparator then body +:+ "/" else body in
      if isAbsolute then "/" +:+ body else body.

(** [path.join(...args)]: the non-empty arguments are glued with the
    separator and the result is normalised. *)
Definition join (args : list string) : string :=
  match filter (fun arg => arg ≠ "") args with
  | [] => "."
  | parts => normalize (JsString.join parts sep)
  end.

(** Directory part and last segment of a path with a separator. *)
Fixpoint splitLast (p : string) : option (string * string) :=
  match p with
  | "" => None
  | String c p' =>
      match splitLast p' with
      | Some (dir, base) => Some (String c dir, base)
      | None => if decide (c = sep) then Some ("", p') else None
      end
  end.

End Path.

(** ** The file system, as far as the page reads it *)

(** An entry of a directory, as opening and reading it goes: a regular
    file the process may read, with its UTF-8 text; a regular file it may
    not read; a sub-directory. *)
Inductive entry :=
  | File (text : string)
  | Locked
  | SubDirectory.

(** A directory: whether the process may list it (read permission),
    whether it may open entries of it by name (search permission), and its
    entries.  Names are unique in a directory, hence a map. *)
Record directory := {
  listable : bool;
  searchable : bool;
  entries : gmap string entry
}.

(** A directory the process may list and search, all of whose entries are
    regular files it may read (name to text). *)
Definition Readable (files : gmap string string) : directory :=
  {| listable := true; searchable := true; entries := File <$> files |}.


(** Directories by path relative to the working directory; a path that is
    not a key does not exist. *)
Abbreviation filesystem := (gmap string directory).

(** A file name is a single path segment: not empty, no separator, and
    neither of the two special entries. *)
Definition file_name (name : string) : Prop :=
  Path.has_sep name = false ∧ name ≠ "" ∧ name ≠ "." ∧ name ≠ "..".

(** A name of the form [stem.mdx] whose stem has no [".mdx"] of its own. *)
Definition mdx_name (file : string) : Prop :=
  ∃ stem, file = stem +:+ ".mdx" ∧ JsString.includes stem ".mdx" = false.

(** [fs.readdirSync(p)]: the names of the entries of a directory that may
    be listed, each once, files and sub-directories alike. *)
Definition readdirSync (fs : filesystem) (p : string) : result (list string) :=
  match fs !! p with
  | None => Throw (FsError ENOENT p)
  | Some d =>
      if listable d then Ok (fst <$> map_to_list (entries d))
      else Throw (FsError EACCES p)
  end.

(** [fs.readFileSync(p, "utf-8")]: the file is opened by name, which needs
    search permission on its directory and not the right to list it, and
    then read; reading a directory fails once it is open. *)
Definition readFileSync (fs : filesystem) (p : string) : result string :=
  let '(dir, base) := default (".", p) (Path.splitLast p) in
  match fs !! dir with
  | None => Throw (FsError ENOENT p)
  | Some d =>
      if searchable d then
        match entries d !! base with
        | Some (File text) => Ok text
        | Some Locked => Throw (FsError EACCES p)
        | Some SubDirectory => Throw (ReadError EISDIR)
        | None => Throw (FsError ENOENT p)
        end
      else Throw (FsError EACCES p)
  end.

(** ** The page's data-fetching functions *)

Record Params := { slug : string }.
Record PathEntry := { params : Params }.
Record StaticPaths := { paths : list PathEntry; fallback : bool }.

#[global] Instance Params_eq_dec : EqDecision Params.
Proof. solve_decision. Defined.
#[global] Instance PathEntry_eq_dec : EqDecision PathEntry.
Proof. solve_decision. Defined.

(** [getStaticPaths]: one path per entry of [data/sketches], its slug being
    the entry's name with the first [".mdx"] removed; no fallback. *)
Definition getStaticPaths (fs : filesystem) : result StaticPaths :=
  files ← readdirSync fs (Path.join ["data/sketches"]);
  let paths :=
    (fun file => {| params := {| slug := JsString.replace file ".mdx" "" |} |})
      <$> files in
  mret {| paths := paths; fallback := false |}.

(** The slugs of the enumerated paths. *)
Definition slugs (r : StaticPaths) : list string :=
  (fun entry => slug (params entry)) <$> paths r.

(** The part of the statistics object of [readingTime] that the page uses. *)
Record ReadingStats (Minutes : Type) := { minutes : Minutes }.
Arguments minutes {Minutes} _.

Section Pipeline.

(** The three libraries the pipeline calls are not part of the page; the
    pipeline is defined for any result they give on their argument in the
    one call the pipeline makes of each.  [matter] returns
    [{ data, content }], [serialize] the compiled body, [readingTime]
    statistics of which the page keeps [minutes]. *)
Context {FrontMatter MdxSource Minutes : Type}.
Variable matter : string -> result (FrontMatter * string).
Variable serialize : string -> result MdxSource.
Variable readingTime : string -> ReadingStats Minutes.

(** The [props] object; its [slug] field is [props_slug] here, the name
    [slug] being taken by the route parameter. *)
Record Props := {
  frontMatter : FrontMatter;
  props_slug : string;
  mdxSource : MdxSource;
  readTime : Minutes
}.
Record StaticProps := { props : Props }.

(** What [getStaticProps] does with the text of the file once read. *)
Definition render (slug : string) (markdown : string) : result StaticProps :=
  '(frontMatter, content) ← matter markdown;
  mdxSource ← serialize content;
  let readTime := minutes (readingTime content) in
  mret {| props := {| frontMatter := frontMatter; props_slug := slug;
                      mdxSource := mdxSource; readTime := readTime |} |}.

(** [getStaticProps({ params: { slug } })] *)
Definition getStaticProps (fs : filesystem) (ctx : PathEntry)
  : result StaticProps :=
  let slug := slug (params ctx) in
  markdown ← readFileSync fs (Path.join ["data/sketches"; slug +:+ ".mdx"]);
  render slug markdown.

End Pipeline.


(** ** The hosting framework's use of [fallback] *)

Inductive served := Prerendered | NotFound | OnDemand.

(** What a request for [/sketches/<s>] gets, given what [getStaticPaths]
    returned.  The repository's own post on the framework states the
    contract for the flag: "{ fallback: false } means other routes should
    404". *)
Definition serve (r : StaticPaths) (s : string) : served :=
  if decide (s ∈ slugs r) then Prerendered
  else if fallback r then OnDemand else NotFound.

(** ** The Front-Matter Splitter *)

Module Matter.

(** Modelled from the spec: the values of the metadata mapping, which the
    splitter (the [gray-matter] package, not in the repository's sources)
    returns.  Spec, 3: a mapping of string keys to scalar or list values. *)
Inductive value :=
  | Scalar (s : string)
  | Items (items : list string).

Abbreviation FrontMatter := (gmap string value).

Definition LF : ascii := "010"%char.

(** Modelled from the spec: the delimiter of the metadata block of the
    content files, as the splitter (not in the sources) recognises it. *)
Definition delimiter : string := "---".

(** Modelled from the spec: value syntax of the splitter (not in the
    sources).  Spec, 4.1: list-valued entries use bracket syntax; any
    other value is a scalar, with no validation. *)
Definition parseValue (v : string) : value :=
  if JsString.startsWith v "[" && JsString.endsWith v "]" then
    let inner := String.rev (JsString.slice (String.rev (JsString.slice v 1)) 1) in
    if decide (JsString.trim inner = "") then Items []
    else Items (JsString.trim <$> JsString.split inner ","%char)
  else Scalar v.

(** Modelled from the spec: the [key: value] form of a metadata line of
    the splitter (not in the sources), cut at the first colon. *)
Fixpoint splitColon (line : string) : option (string * string) :=
  match line with
  | "" => None
  | String a line' =>
      if decide (a = ":"%char) then Some ("", line')
      else '(key, v) ← splitColon line'; Some (String a key, v)
  end.

(** Modelled from the spec: the metadata block of the splitter (not in
    the sources).  Spec, 4.1: the keys are exactly those present between
    the delimiters; a block that is malformed, or never closed, signals a
    ParseError.  Returns the mapping and the lines left for the body. *)
Fixpoint parseBlock (lines : list string) (data : FrontMatter)
  : result (FrontMatter * list string) :=
  match lines with
  | [] => Throw (ParseError "unterminated front matter")
  | line :: lines' =>
      if decide (JsString.trimEnd line = delimiter) then Ok (data, lines')
      else if decide (JsString.trim line = "") then parseBlock lines' data
      else match splitColon line with
           | None => Throw (ParseError line)
           | Some (key, v) =>
               parseBlock lines'
                 (<[JsString.trim key := parseValue (JsString.trim v)]> data)
           end
  end.

(** Modelled from the spec: the Front-Matter Splitter is the [gray-matter]
    package, whose code is not in the repository's sources.  Spec, 4.1:
    given raw file text, return [(frontMatter, body)]; when the text does
    not begin with the delimiter the entire text is the body and the
    front matter is empty; otherwise the keys are those between the
    delimiters, in a line-oriented [key: value] grammar with bracket
    syntax for lists; a malformed block (for instance an unterminated
    one) signals a ParseError. *)
Definition matter (text : string) : result (FrontMatter * string) :=
  if JsString.startsWith text delimiter then
    match JsString.split text LF with
    | _opening :: lines =>
        '(data, body) ← parseBlock lines ∅;
        mret (data, JsString.join body LF)
    | [] => mret (∅, text)
    end
  else mret (∅, text).

End Matter.

(** ** The Reading-Time Estimator *)

Module ReadingTime.

(** Modelled from the spec: the constant of the estimator (the
    [reading-time] package, not in the repository's sources).  Spec, 4.3:
    assumed words per minute, conventionally 200. *)
Definition wordsPerMinute : nat := 200.

(** Modelled from the spec: the word count of the estimator (not in the
    sources); the words of a text are its maximal runs of characters that
    are not white space. *)
Definition wordCount (text : string) : nat := length (String.words text).

(** Modelled from the spec: the rounding of the estimator (not in the
    sources).  Spec, 4.3: rounded up; this is [n / d] rounded up. *)
Definition divCeil (n d : nat) : nat := (n + (d - 1)) / d.

(** Modelled from the spec: the Reading-Time Estimator is the
    [reading-time] package, whose code is not in the repository's
    sources.  Spec, 4.3: given body text, return estimated minutes to
    read = word_count / assumed_words_per_minute (200), rounded up. *)
Definition readingTime (text : string) : ReadingStats nat :=
  {| minutes := divCeil (wordCount text) wordsPerMinute |}.

End ReadingTime.

(** The spec's StoreError: a system error on the content directory itself. *)
Definition StoreError (e : exn) : Prop :=
  ∃ code, e = FsError code "data/sketches".

(** ** Stores used in the examples below *)

(** A note kept next to the sketch of the same name. *)
Definition notes_store : filesystem :=
  {[ "data/sketches" := Readable {[ "notes" := "todo"; "notes.mdx" := "# Notes" ]} ]}.

(** The store of the spec's example. *)
Definition ab_store : filesystem :=
  {[ "data/sketches" := Readable {[ "a.mdx" := "# A"; "b.mdx" := "# B" ]} ]}.

(** Two sketches whose metadata block is never closed. *)
Definition unterminated : string :=
  "---" +:+ String Matter.LF "title: Draft".

(** ** The page component's metadata object *)

(** What reading a property of a JavaScript object gives: the value stored
    under the key, or [undefined]. *)
Inductive js (V : Type) :=
  | Undefined
  | Defined (v : V).
Arguments Undefined {V}.
Arguments Defined {V} v.

(** [o.k] on an object whose stored values are all defined (the front
    matter arrives as JSON props). *)
Definition prop {V : Type} (o : gmap string V) (k : string) : js V :=
  match o !! k with
  | Some v => Defined v
  | None => Undefined
  end.

(** [o.k] on an object that may store [undefined] under a key. *)
Definition propU {V : Type} (o : gmap string (js V)) (k : string) : js V :=
  default Undefined (o !! k).

(** [{ ...target, ...src }]: the properties of [src] are copied over those
    of [target]. *)
Definition spread {V : Type} (src : gmap string V) (target : gmap string (js V))
  : gmap string (js V) :=
  (Defined <$> src) ∪ target.

(** The [meta] object [Post] hands to the page layout:
    [{ title: frontMatter.title, description: frontMatter.description,
       ...frontMatter }]. *)
Definition meta {V : Type} (frontMatter : gmap string V) : gmap string (js V) :=
  spread frontMatter
    (<["description" := prop frontMatter "description"]>
       (<["title" := prop frontMatter "title"]> ∅)).

(** [k] repetitions of the extension. *)
Fixpoint mdx_power (k : nat) : string :=
  match k with
  | 0 => ""
  | S k' => ".mdx" +:+ mdx_power k'
  end.

(** * Properties *)

(** ** Strings *)

Local Arguments String.append !_ _ / : simpl nomatch.

Lemma app_cons (c : ascii) (s t : string) : String c s +:+ t = String c (s +:+ t).
Proof. reflexivity. Qed.

Lemma app_empty_r (s : string) : s +:+ "" = s.
Proof. induction s as [|c s IH]; simpl; [done | by rewrite IH]. Qed.

Lemma app_assoc_s (s t u : string) : (s +:+ t) +:+ u = s +:+ (t +:+ u).
Proof. induction s as [|c s IH]; simpl; [done | by rewrite IH]. Qed.

Lemma app_not_empty (s t : string) : t ≠ "" -> s +:+ t ≠ "".
Proof. destruct s; simpl; [done | discriminate]. Qed.

Lemma startsWith_mdx_app (s : string) :
  s ≠ "" ->
  JsString.startsWith s ".mdx" = false ->
  JsString.startsWith (s +:+ ".mdx") ".mdx" = false.
Proof.
  intros Hne Hs.
  destruct s as [|a [|b [|c [|d s]]]]; simpl in *; try done;
    repeat (case_decide; simpl in *; try done; subst).
Qed.

Lemma includes_cons (c : ascii) (s pat : string) :
  JsString.includes (String c s) pat = false ->
  JsString.startsWith (String c s) pat = false ∧ JsString.includes s pat = false.
Proof. simpl. intros H. by apply orb_false_elim in H. Qed.

(** Removing the first [".mdx"] from [stem.mdx] gives [stem] back when the
    stem has no [".mdx"] of its own. *)
Lemma replace_stem (stem : string) :
  JsString.includes stem ".mdx" = false ->
  JsString.replace (stem +:+ ".mdx") ".mdx" "" = stem.
Proof.
  induction stem as [|c stem IH]; intros Hinc; [reflexivity|].
  apply includes_cons in Hinc as [Hstart Hrest].
  rewrite app_cons.
  change (JsString.replace (String c (stem +:+ ".mdx")) ".mdx" "")
    with (if JsString.startsWith (String c (stem +:+ ".mdx")) ".mdx"
          then "" +:+ JsString.slice (String c (stem +:+ ".mdx")) 4
          else String c (JsString.replace (stem +:+ ".mdx") ".mdx" "")).
  rewrite <- app_cons, startsWith_mdx_app by done.
  by rewrite IH.
Qed.

(** ** Paths *)

Lemma has_sep_app (s t : string) :
  Path.has_sep (s +:+ t) = Path.has_sep s || Path.has_sep t.
Proof.
  induction s as [|c s IH]; simpl; [done|].
  by case_decide.
Qed.

Lemma split_no_sep (s : string) :
  Path.has_sep s = false -> JsString.split s Path.sep = [s].
Proof.
  induction s as [|c s IH]; simpl; [done|].
  case_decide; [done|]. intros Hs. by rewrite IH.
Qed.

Lemma endsWith_no_sep (s : string) :
  Path.has_sep s = false -> JsString.endsWith s "/" = false.
Proof.
  induction s as [|c s IH]; simpl; [done|].
  case_decide as Hc; [done|]. intros Hs.
  case_decide as Heq; [|by apply IH].
  injection Heq as -> _. by destruct Hc.
Qed.

Lemma endsWith_app_no_sep (dir name : string) :
  Path.has_sep name = false -> name ≠ "" ->
  JsString.endsWith (dir +:+ name) "/" = false.
Proof.
  intros Hs Hne. induction dir as [|c dir IH]; simpl.
  - by apply endsWith_no_sep.
  - case_decide as Heq; [|done].
    injection Heq as _ Heq. by apply app_not_empty in Heq.
Qed.

(** Joining the content directory and a file name only glues them. *)
Lemma join_file_name (name : string) :
  file_name name ->
  Path.join ["data/sketches"; name] = "data/sketches/" +:+ name.
Proof.
  intros (Hs & Hne & Hdot & Hdots).
  unfold Path.join. rewrite !filter_cons, filter_nil.
  rewrite decide_True by done. rewrite (decide_True (P := name ≠ "")) by done.
  change (JsString.join ["data/sketches"; name] Path.sep)
    with ("data/sketches/" +:+ name).
  unfold Path.normalize.
  rewrite decide_False by (by apply app_not_empty).
  rewrite endsWith_app_no_sep by done.
  replace (JsString.split ("data/sketches/" +:+ name) Path.sep)
    with ["data"; "sketches"; name] by (simpl; by rewrite split_no_sep).
  replace (Path.normalizeSegments (negb (JsString.startsWith ("data/sketches/" +:+ name) "/"))
             ["data"; "sketches"; name]) with ["data"; "sketches"; name].
  - reflexivity.
  - unfold Path.normalizeSegments, Path.push. simpl.
    rewrite (decide_False (P := name = "" ∨ name = ".")) by (by intros [?|?]).
    by rewrite (decide_False (P := name = "..")) by done.
Qed.

Lemma splitLast_no_sep (s : string) :
  Path.has_sep s = false -> Path.splitLast s = None.
Proof.
  induction s as [|c s IH]; simpl; [done|].
  case_decide; [done|]. intros Hs. by rewrite IH.
Qed.

Lemma splitLast_app (dir name : string) :
  Path.has_sep name = false ->
  Path.splitLast (dir +:+ String Path.sep name) = Some (dir, name).
Proof.
  intros Hs. induction dir as [|c dir IH]; simpl.
  - by rewrite splitLast_no_sep.
  - by rewrite IH.
Qed.

(** Reading [<dir>/<name>] looks [name] up among the files of [dir]. *)
Lemma readFileSync_file (fs : filesystem) (dir name : string) files :
  Path.has_sep name = false ->
  fs !! dir = Some (Readable files) ->
  readFileSync fs (dir +:+ String Path.sep name) =
    match files !! name with
    | Some text => Ok text
    | None => Throw (FsError ENOENT (dir +:+ String Path.sep name))
    end.
Proof.
  intros Hs Hdir. unfold readFileSync.
  rewrite splitLast_app by done. simpl. rewrite Hdir. simpl.
  rewrite lookup_fmap. by destruct (files !! name).
Qed.

Lemma length_app_s (s t : string) :
  String.length (s +:+ t) = String.length s + String.length t.
Proof. induction s as [|c s IH]; simpl; [done | by rewrite IH]. Qed.

(** Appending is injective in its first argument too. *)
Lemma app_inj_r (s1 s2 t : string) : s1 +:+ t = s2 +:+ t -> s1 = s2.
Proof.
  revert s2. induction s1 as [|c s1 IH]; intros [|d s2] Heq; simpl in Heq.
  - done.
  - apply (f_equal String.length) in Heq. simpl in Heq.
    rewrite length_app_s in Heq. lia.
  - apply (f_equal String.length) in Heq. simpl in Heq.
    rewrite length_app_s in Heq. lia.
  - injection Heq as -> Heq. f_equal. by apply IH.
Qed.

(** [<slug>.mdx] is a file name as soon as the slug has no separator. *)
Lemma file_name_mdx (s : string) :
  Path.has_sep s = false -> file_name (s +:+ ".mdx").
Proof.
  intros Hs. repeat split.
  - rewrite has_sep_app, Hs. reflexivity.
  - by apply app_not_empty.
  - intros Heq. apply (f_equal String.length) in Heq.
    rewrite length_app_s in Heq. simpl in Heq. lia.
  - intros Heq. apply (f_equal String.length) in Heq.
    rewrite length_app_s in Heq. simpl in Heq. lia.
Qed.

Lemma mdx_name_replace (file : string) :
  mdx_name file -> JsString.replace file ".mdx" "" +:+ ".mdx" = file.
Proof. intros (stem & -> & Hinc). by rewrite replace_stem. Qed.

Lemma mdx_name_slug_sep (file : string) :
  mdx_name file -> Path.has_sep file = false ->
  Path.has_sep (JsString.replace file ".mdx" "") = false.
Proof.
  intros (stem & -> & Hinc) Hs. rewrite replace_stem by done.
  rewrite has_sep_app in Hs. by apply orb_false_elim in Hs as [? _].
Qed.

(** ** What the two functions compute *)

(** The listing of a directory of readable files is that of their names. *)
Lemma listing_Readable (files : gmap string string) :
  fst <$> map_to_list (File <$> files) = fst <$> map_to_list files.
Proof.
  rewrite map_to_list_fmap, <- list_fmap_compose.
  apply list_fmap_ext. by intros i [name text] _.
Qed.

Lemma getStaticPaths_readable (fs : filesystem) files :
  getStaticPaths (<["data/sketches" := Readable files]> fs) =
    Ok {| paths := (fun file => {| params := {| slug := JsString.replace file ".mdx" "" |} |})
                     <$> (fst <$> map_to_list files);
          fallback := false |}.
Proof.
  unfold getStaticPaths, readdirSync.
  change (Path.join ["data/sketches"]) with "data/sketches".
  rewrite lookup_insert_eq. simpl. by rewrite listing_Readable.
Qed.

Lemma elem_of_listing (files : gmap string string) (file : string) :
  file ∈ fst <$> map_to_list files ↔ is_Some (files !! file).
Proof.
  rewrite list_elem_of_fmap. split.
  - intros ([name text] & -> & Hin). apply elem_of_map_to_list in Hin. by exists text.
  - intros [text Hin]. exists (file, text). split; [done|].
    by apply elem_of_map_to_list.
Qed.

Section PipelineFacts.

Context {FrontMatter MdxSource Minutes : Type}.
Variable matter : string -> result (FrontMatter * string).
Variable serialize : string -> result MdxSource.
Variable readingTime : string -> ReadingStats Minutes.

(** For a slug without separator, [getStaticProps] depends on the file
    system only through the entry [<slug>.mdx] of the content directory. *)
Lemma getStaticProps_readable (fs : filesystem) files (s : string) :
  Path.has_sep s = false ->
  getStaticProps matter serialize readingTime
      (<["data/sketches" := Readable files]> fs) {| params := {| slug := s |} |} =
    match files !! (s +:+ ".mdx") with
    | Some text => render matter serialize readingTime s text
    | None => Throw (FsError ENOENT ("data/sketches/" +:+ s +:+ ".mdx"))
    end.
Proof.
  intros Hs. unfold getStaticProps. simpl slug.
  rewrite join_file_name by (by apply file_name_mdx).
  change ("data/sketches/" +:+ s +:+ ".mdx")
    with ("data/sketches" +:+ String Path.sep (s +:+ ".mdx")).
  rewrite (readFileSync_file _ _ _ files).
  - by destruct (files !! (s +:+ ".mdx")).
  - rewrite has_sep_app, Hs. reflexivity.
  - by rewrite lookup_insert_eq.
Qed.

(** C1 (amended).  For every file of the content store whose name is
    [stem.mdx] with no other [".mdx"] in it, the slug [getStaticPaths]
    produces is the stem; appending [".mdx"] to it gives the file name
    back, the path [getStaticProps] builds is that file's, and what
    [getStaticProps] renders is that file's text. *)
Theorem slug_roundtrip_mdx (fs : filesystem) files (file text : string) :
  files !! file = Some text ->
  Path.has_sep file = false ->
  mdx_name file ->
  let store := <["data/sketches" := Readable files]> fs in
  let s := JsString.replace file ".mdx" "" in
  ∃ r, getStaticPaths store = Ok r ∧
       {| params := {| slug := s |} |} ∈ paths r ∧
       s +:+ ".mdx" = file ∧
       Path.join ["data/sketches"; s +:+ ".mdx"] = "data/sketches/" +:+ file ∧
       getStaticProps matter serialize readingTime store {| params := {| slug := s |} |} =
         render matter serialize readingTime s text.
Proof.
  intros Hfile Hsep Hmdx store s.
  pose proof (mdx_name_replace file Hmdx) as Hback. fold s in Hback.
  pose proof (mdx_name_slug_sep file Hmdx Hsep) as Hslug. fold s in Hslug.
  eexists. split; [apply getStaticPaths_readable|]. simpl paths.
  split; [|split; [done|split]].
  - apply list_elem_of_fmap. exists file. split; [done|].
    apply elem_of_listing. by exists text.
  - rewrite Hback. apply join_file_name. rewrite <- Hback. by apply file_name_mdx.
  - unfold store. rewrite getStaticProps_readable by done.
    by rewrite Hback, Hfile.
Qed.

End PipelineFacts.

Lemma slug_roundtrip_mdx_witness :
  ({[ "a.mdx" := "# A"; "b.mdx" := "# B" ]} : gmap string string) !! "a.mdx"
    = Some "# A" ∧
  Path.has_sep "a.mdx" = false ∧
  mdx_name "a.mdx" ∧
  ∃ r, getStaticPaths ab_store = Ok r ∧
       {| params := {| slug := "a" |} |} ∈ paths r ∧
       "a" +:+ ".mdx" = "a.mdx" ∧
       Path.join ["data/sketches"; "a" +:+ ".mdx"] = "data/sketches/a.mdx" ∧
       getStaticProps Matter.matter Ok ReadingTime.readingTime ab_store
           {| params := {| slug := "a" |} |} =
         render Matter.matter Ok ReadingTime.readingTime "a" "# A".
Proof.
  assert (mdx_name "a.mdx") as Hmdx by (exists "a"; split; reflexivity).
  split; [reflexivity|]. split; [reflexivity|]. split; [exact Hmdx|].
  apply (slug_roundtrip_mdx Matter.matter Ok ReadingTime.readingTime
           ∅ {[ "a.mdx" := "# A"; "b.mdx" := "# B" ]} "a.mdx" "# A").
  - reflexivity.
  - reflexivity.
  - exact Hmdx.
Defined.

(** C1, as stated, fails: [notes] and [notes.mdx] both get the slug
    [notes], and handing the slug derived from [notes] back to
    [getStaticProps] renders the text of the other file, [notes.mdx]. *)
Lemma slug_roundtrip_counterexample :
  getStaticPaths notes_store =
    Ok {| paths := [ {| params := {| slug := "notes" |} |};
                     {| params := {| slug := "notes" |} |} ];
          fallback := false |} ∧
  JsString.replace "notes" ".mdx" "" +:+ ".mdx" ≠ "notes" ∧
  Path.join ["data/sketches"; JsString.replace "notes" ".mdx" "" +:+ ".mdx"]
    = "data/sketches/notes.mdx" ∧
  getStaticProps Matter.matter Ok ReadingTime.readingTime notes_store
      {| params := {| slug := JsString.replace "notes" ".mdx" "" |} |} =
    render Matter.matter Ok ReadingTime.readingTime "notes" "# Notes" ∧
  render Matter.matter Ok ReadingTime.readingTime "notes" "# Notes" ≠
    render Matter.matter Ok ReadingTime.readingTime "notes" "todo".
Proof.
  split; [by vm_compute|]. split; [discriminate|].
  split; [by vm_compute|]. split; [by vm_compute|].
  vm_compute. discriminate.
Qed.

(** ** Route enumeration *)

Lemma slugs_readable (files : gmap string string) (ps : list PathEntry) (fb : bool) :
  ps = (fun file => {| params := {| slug := JsString.replace file ".mdx" "" |} |})
         <$> (fst <$> map_to_list files) ->
  slugs {| paths := ps; fallback := fb |} =
    (fun file => JsString.replace file ".mdx" "") <$> (fst <$> map_to_list files).
Proof.
  intros ->. unfold slugs. simpl. rewrite <- list_fmap_compose.
  by apply list_fmap_ext.
Qed.

(** C3 (amended).  [getStaticPaths] enumerates every entry of the content
    directory exactly once: its paths are the image of a duplicate-free
    listing of all the names.  When every name is [stem.mdx] with no other
    [".mdx"] in it, the slugs are the stems, no slug occurs twice, and a
    slug is produced exactly when [<slug>.mdx] is in the store.  For the
    store with [a.mdx] and [b.mdx] the slugs are [a] and [b]. *)
Theorem enumerates_each_file_once :
  (∀ (fs : filesystem) (files : gmap string string),
     ∃ r names,
       getStaticPaths (<["data/sketches" := Readable files]> fs) = Ok r ∧
       NoDup names ∧
       (∀ file, file ∈ names ↔ is_Some (files !! file)) ∧
       paths r = (fun file => {| params := {| slug := JsString.replace file ".mdx" "" |} |})
                   <$> names ∧
       length (paths r) = size files ∧
       ((∀ file, is_Some (files !! file) -> mdx_name file) ->
        NoDup (slugs r) ∧
        (∀ s, s ∈ slugs r ↔ is_Some (files !! (s +:+ ".mdx"))))) ∧
  (∃ r, getStaticPaths ab_store = Ok r ∧ slugs r ≡ₚ ["a"; "b"]).
Proof.
  split.
  - intros fs files. eexists. exists (fst <$> map_to_list files).
    split; [apply getStaticPaths_readable|].
    split; [apply NoDup_fst_map_to_list|].
    split; [apply elem_of_listing|].
    split; [done|].
    split; [simpl; by rewrite !length_fmap, length_map_to_list|].
    intros Hmdx. rewrite (slugs_readable files _ _ eq_refl). split.
    + apply NoDup_fmap_2_strong; [|apply NoDup_fst_map_to_list].
      intros f1 f2 Hf1%elem_of_listing%Hmdx Hf2%elem_of_listing%Hmdx Heq.
      by rewrite <- (mdx_name_replace f1), <- (mdx_name_replace f2), Heq.
    + intros s. rewrite list_elem_of_fmap. split.
      * intros (file & -> & Hin%elem_of_listing).
        by rewrite mdx_name_replace by (by apply Hmdx).
      * intros Hin. exists (s +:+ ".mdx"). split; [|by apply elem_of_listing].
        apply (app_inj_r _ _ ".mdx"). by rewrite mdx_name_replace by (by apply Hmdx).
  - eexists. split; [by vm_compute|]. simpl. done.
Qed.

Lemma enumerates_each_file_once_witness :
  (∀ file,
     is_Some (({[ "a.mdx" := "# A"; "b.mdx" := "# B" ]} : gmap string string) !! file) ->
     mdx_name file) ∧
  ∃ r, getStaticPaths ab_store = Ok r ∧
       NoDup (slugs r) ∧
       (∀ s, s ∈ slugs r ↔
             is_Some (({[ "a.mdx" := "# A"; "b.mdx" := "# B" ]} : gmap string string)
                        !! (s +:+ ".mdx"))).
Proof.
  assert (∀ file,
     is_Some (({[ "a.mdx" := "# A"; "b.mdx" := "# B" ]} : gmap string string) !! file) ->
     mdx_name file) as Hnames.
  { intros file [text Hfile].
    apply lookup_insert_Some in Hfile as [[<- _]|[_ Hfile]].
    - exists "a". split; reflexivity.
    - apply lookup_singleton_Some in Hfile as [<- _].
      exists "b". split; reflexivity. }
  split; [exact Hnames|].
  destruct enumerates_each_file_once as [Hall _].
  destruct (Hall ∅ {[ "a.mdx" := "# A"; "b.mdx" := "# B" ]})
    as (r & names & Hr & _ & _ & _ & _ & Hmdx).
  exists r. split; [exact Hr|]. apply Hmdx, Hnames.
Defined.

(** C3, as stated, fails: the store with the entries [notes] and
    [notes.mdx] has two files and yields the slug [notes] twice. *)
Lemma duplicate_slugs_counterexample :
  ∃ r, getStaticPaths notes_store = Ok r ∧
       slugs r = ["notes"; "notes"] ∧ ¬ NoDup (slugs r).
Proof.
  eexists. split; [by vm_compute|]. split; [reflexivity|].
  simpl. intros Hnd. apply NoDup_cons in Hnd as [Hin _].
  apply Hin. left.
Qed.

(** C10.  Whatever files the content store holds, [getStaticPaths] returns
    the enumerated paths together with [fallback = false]; hence a slug
    that is not derived from a file of the store gets no page (404), not a
    page generated on demand.  In no state of the file system does
    [getStaticPaths] return anything but [fallback = false]. *)
Theorem fallback_false_404 :
  (∀ (fs : filesystem) (files : gmap string string),
     ∃ ps,
       getStaticPaths (<["data/sketches" := Readable files]> fs) =
         Ok {| paths := ps; fallback := false |} ∧
       ps = (fun file => {| params := {| slug := JsString.replace file ".mdx" "" |} |})
              <$> (fst <$> map_to_list files) ∧
       ∀ s, (∀ file, is_Some (files !! file) -> JsString.replace file ".mdx" "" ≠ s) ->
            serve {| paths := ps; fallback := false |} s = NotFound) ∧
  (∀ (fs : filesystem) (r : StaticPaths),
     getStaticPaths fs = Ok r ->
     fallback r = false ∧ ∀ s, s ∉ slugs r -> serve r s = NotFound).
Proof.
  split.
  - intros fs files.
    eexists. split; [apply getStaticPaths_readable|]. split; [done|].
    intros s Hnot. unfold serve. rewrite (slugs_readable files _ _ eq_refl).
    rewrite decide_False; [done|].
    intros (file & -> & Hin%elem_of_listing)%list_elem_of_fmap.
    by apply (Hnot file).
  - intros fs r. unfold getStaticPaths.
    destruct (readdirSync fs (Path.join ["data/sketches"])) as [names|e]; simpl; [|done].
    intros [= <-]. split; [done|].
    intros s Hnot. unfold serve. by rewrite decide_False.
Qed.

Lemma fallback_false_404_witness :
  (∀ file,
     is_Some (({[ "a.mdx" := "# A"; "b.mdx" := "# B" ]} : gmap string string) !! file) ->
     JsString.replace file ".mdx" "" ≠ "c") ∧
  ∃ ps, getStaticPaths ab_store = Ok {| paths := ps; fallback := false |} ∧
        serve {| paths := ps; fallback := false |} "c" = NotFound.
Proof.
  assert (∀ file,
     is_Some (({[ "a.mdx" := "# A"; "b.mdx" := "# B" ]} : gmap string string) !! file) ->
     JsString.replace file ".mdx" "" ≠ "c") as Hother.
  { intros file [text Hfile].
    apply lookup_insert_Some in Hfile as [[<- _]|[_ Hfile]]; [discriminate|].
    apply lookup_singleton_Some in Hfile as [<- _]. discriminate. }
  split; [exact Hother|].
  destruct fallback_false_404 as [Hreadable _].
  destruct (Hreadable ∅ {[ "a.mdx" := "# A"; "b.mdx" := "# B" ]})
    as (ps & Hps & _ & H404).
  exists ps. split; [exact Hps|]. apply H404, Hother.
Defined.

Section StoreFailure.

Context {FrontMatter MdxSource Minutes : Type}.
Variable matter : string -> result (FrontMatter * string).
Variable serialize : string -> result MdxSource.
Variable readingTime : string -> ReadingStats Minutes.

(** C9.  When the content directory is missing, or the process may not
    list it, [getStaticPaths] throws the store error (ENOENT, respectively
    EACCES, on [data/sketches]) and returns no routes.  When the directory
    is missing no page can be generated either: [getStaticProps] throws
    ENOENT for every slug. *)
Theorem missing_store_is_fatal (fs : filesystem) :
  fs !! "data/sketches" = None ∨
  (∃ d, fs !! "data/sketches" = Some d ∧ listable d = false) ->
  (∃ e, StoreError e ∧ getStaticPaths fs = Throw e) ∧
  (∀ r, getStaticPaths fs ≠ Ok r) ∧
  (fs !! "data/sketches" = None ->
   ∀ s, Path.has_sep s = false ->
        getStaticProps matter serialize readingTime fs {| params := {| slug := s |} |}
          = Throw (FsError ENOENT ("data/sketches/" +:+ s +:+ ".mdx"))).
Proof.
  intros Hdir.
  assert (∃ code, getStaticPaths fs = Throw (FsError code "data/sketches"))
    as [code Hpaths].
  { unfold getStaticPaths, readdirSync.
    change (Path.join ["data/sketches"]) with "data/sketches".
    destruct Hdir as [Hdir|(d & Hdir & Hlist)]; rewrite Hdir.
    - by exists ENOENT.
    - exists EACCES. by rewrite Hlist. }
  split; [|split].
  - exists (FsError code "data/sketches"). split; [by exists code | done].
  - intros r. by rewrite Hpaths.
  - intros Hnone s Hs. unfold getStaticProps. simpl slug.
    rewrite join_file_name by (by apply file_name_mdx).
    change ("data/sketches/" +:+ s +:+ ".mdx")
      with ("data/sketches" +:+ String Path.sep (s +:+ ".mdx")).
    unfold readFileSync. rewrite splitLast_app by (by rewrite has_sep_app, Hs).
    simpl. by rewrite Hnone.
Qed.

End StoreFailure.

Lemma missing_store_is_fatal_witness :
  ((∅ : filesystem) !! "data/sketches" = None ∨
   (∃ d, (∅ : filesystem) !! "data/sketches" = Some d ∧ listable d = false)) ∧
  (∃ e, StoreError e ∧ getStaticPaths ∅ = Throw e) ∧
  (∀ r, getStaticPaths ∅ ≠ Ok r) ∧
  ((∅ : filesystem) !! "data/sketches" = None ->
   ∀ s, Path.has_sep s = false ->
        getStaticProps Matter.matter Ok ReadingTime.readingTime ∅
            {| params := {| slug := s |} |}
          = Throw (FsError ENOENT ("data/sketches/" +:+ s +:+ ".mdx"))).
Proof.
  split; [left; reflexivity|].
  apply (missing_store_is_fatal Matter.matter Ok ReadingTime.readingTime ∅).
  left. reflexivity.
Defined.

(** ** The Front-Matter Splitter *)

(** C4.  For every text that does not begin with the front-matter
    delimiter, the splitter succeeds: the front matter is empty and the
    body is the text itself. *)
Theorem matter_without_delimiter (text : string) :
  JsString.startsWith text Matter.delimiter = false ->
  Matter.matter text = Ok (∅, text).
Proof. intros Hstart. unfold Matter.matter. by rewrite Hstart. Qed.

Lemma matter_without_delimiter_witness :
  JsString.startsWith "# Hi there" Matter.delimiter = false ∧
  Matter.matter "# Hi there" = Ok (∅, "# Hi there").
Proof.
  split; [reflexivity|].
  apply (matter_without_delimiter "# Hi there"). reflexivity.
Defined.

(** ** The Reading-Time Estimator *)

Lemma divCeil_bounds (n : nat) :
  n ≤ 200 * ReadingTime.divCeil n 200 ∧ 200 * ReadingTime.divCeil n 200 < n + 200.
Proof.
  unfold ReadingTime.divCeil. change (200 - 1) with 199.
  pose proof (Nat.div_mod_eq (n + 199) 200) as Hdiv.
  pose proof (Nat.mod_upper_bound (n + 199) 200) as Hmod.
  lia.
Qed.

Lemma divCeil_mono (n m : nat) :
  n ≤ m -> ReadingTime.divCeil n 200 ≤ ReadingTime.divCeil m 200.
Proof.
  intros Hle. unfold ReadingTime.divCeil.
  apply Nat.Div0.div_le_mono. lia.
Qed.

(** C2 (amended).  For every body, the estimate is the word count divided
    by 200 words per minute, rounded up to the next whole minute: it is the
    least number of minutes [m] with [words <= 200 * m].  Hence every body
    with at least one word yields at least one minute. *)
Theorem reading_time_rounds_up (body : string) :
  let m := minutes (ReadingTime.readingTime body) in
  let words := ReadingTime.wordCount body in
  words ≤ ReadingTime.wordsPerMinute * m ∧
  (∀ m', words ≤ ReadingTime.wordsPerMinute * m' -> m ≤ m') ∧
  (0 < words -> 1 ≤ m).
Proof.
  intros m words.
  change m with (ReadingTime.divCeil words 200).
  change ReadingTime.wordsPerMinute with 200.
  destruct (divCeil_bounds words) as [Hlow Hhigh].
  split; [done|]. split; [intros m' Hm'|intros Hpos]; lia.
Qed.

Lemma reading_time_rounds_up_witness :
  0 < ReadingTime.wordCount "Hi there" ∧
  1 ≤ minutes (ReadingTime.readingTime "Hi there").
Proof.
  split; [vm_compute; lia|].
  apply (reading_time_rounds_up "Hi there"). vm_compute. lia.
Defined.

(** C2, as stated, fails: a body made of one blank is not empty, has no
    word, and is estimated at zero minutes. *)
Lemma reading_time_blank_counterexample :
  " " ≠ "" ∧ ReadingTime.wordCount " " = 0 ∧
  minutes (ReadingTime.readingTime " ") = 0.
Proof. split; [discriminate|]. split; reflexivity. Qed.

(** C8.  The estimate is monotonic in the word count: a body with at least
    as many words as another is estimated at least as long; and the empty
    body is estimated at zero minutes. *)
Theorem reading_time_monotone :
  (∀ body1 body2,
     ReadingTime.wordCount body1 ≤ ReadingTime.wordCount body2 ->
     minutes (ReadingTime.readingTime body1) ≤ minutes (ReadingTime.readingTime body2)) ∧
  minutes (ReadingTime.readingTime "") = 0.
Proof.
  split; [|reflexivity].
  intros body1 body2 Hle. simpl. by apply divCeil_mono.
Qed.

Lemma reading_time_monotone_witness :
  ReadingTime.wordCount "Hi" ≤ ReadingTime.wordCount "Hi there" ∧
  minutes (ReadingTime.readingTime "Hi") ≤ minutes (ReadingTime.readingTime "Hi there").
Proof.
  split; [vm_compute; lia|].
  destruct reading_time_monotone as [Hmono _].
  apply (Hmono "Hi" "Hi there"). vm_compute. lia.
Defined.

(** * Further properties of the page's code *)

(** ** The slug derivation, for any entry name *)

Lemma startsWith_mdx_app_post (s post : string) :
  s ≠ "" ->
  JsString.startsWith s ".mdx" = false ->
  JsString.startsWith (s +:+ ".mdx" +:+ post) ".mdx" = false.
Proof.
  intros Hne Hs.
  destruct s as [|a [|b [|c [|d s]]]]; simpl in *; try done;
    repeat (case_decide; simpl in *; try done; subst).
Qed.

Lemma replace_unfold (c : ascii) (s : string) :
  JsString.replace (String c s) ".mdx" "" =
    if JsString.startsWith (String c s) ".mdx"
    then "" +:+ JsString.slice (String c s) 4
    else String c (JsString.replace s ".mdx" "").
Proof. reflexivity. Qed.

Lemma slice_zero (s : string) : JsString.slice s 0 = s.
Proof. by destruct s. Qed.

(** The first [".mdx"] is the one that goes. *)
Lemma replace_first_mdx (pre post : string) :
  JsString.includes pre ".mdx" = false ->
  JsString.replace (pre +:+ ".mdx" +:+ post) ".mdx" "" = pre +:+ post.
Proof.
  induction pre as [|c pre IH]; intros Hinc.
  { simpl. apply slice_zero. }
  apply includes_cons in Hinc as [Hstart Hrest].
  change (String c pre +:+ ".mdx" +:+ post) with (String c (pre +:+ ".mdx" +:+ post)).
  rewrite replace_unfold.
  change (String c (pre +:+ ".mdx" +:+ post)) with (String c pre +:+ ".mdx" +:+ post).
  rewrite startsWith_mdx_app_post by done.
  by rewrite IH.
Qed.

Lemma replace_no_mdx (s : string) :
  JsString.includes s ".mdx" = false -> JsString.replace s ".mdx" "" = s.
Proof.
  induction s as [|c s IH]; intros Hinc; [reflexivity|].
  apply includes_cons in Hinc as [Hstart Hrest].
  by rewrite replace_unfold, Hstart, IH.
Qed.

Lemma startsWith_app (s t pat : string) :
  JsString.startsWith s pat = true -> JsString.startsWith (s +:+ t) pat = true.
Proof.
  revert s. induction pat as [|a pat IH]; intros [|b s]; simpl; try done.
  case_decide; [apply IH | done].
Qed.

Lemma startsWith_slice (s pat : string) :
  JsString.startsWith s pat = true ->
  s = pat +:+ JsString.slice s (String.length pat).
Proof.
  revert s. induction pat as [|a pat IH]; intros [|b s]; simpl; try done.
  case_decide as Hab; [|done]. intros Hs. subst b. f_equal. by apply IH.
Qed.

Lemma includes_unfold (c : ascii) (s pat : string) :
  JsString.includes (String c s) pat =
    JsString.startsWith (String c s) pat || JsString.includes s pat.
Proof. reflexivity. Qed.

(** A name that includes [".mdx"] splits at its first occurrence. *)
Lemma includes_first_mdx (s : string) :
  JsString.includes s ".mdx" = true ->
  ∃ pre post, s = pre +:+ ".mdx" +:+ post ∧ JsString.includes pre ".mdx" = false.
Proof.
  induction s as [|c s IH]; [done|].
  destruct (JsString.startsWith (String c s) ".mdx") eqn:Hstart.
  - intros _. exists "", (JsString.slice (String c s) 4). split; [|done].
    by apply startsWith_slice in Hstart.
  - rewrite includes_unfold, Hstart. simpl orb.
    intros (pre & post & -> & Hpre)%IH.
    exists (String c pre), post. split; [done|].
    rewrite includes_unfold, Hpre, orb_false_r.
    destruct (JsString.startsWith (String c pre) ".mdx") eqn:Hpre'; [|done].
    apply (startsWith_app _ (".mdx" +:+ post)) in Hpre'.
    rewrite app_cons in Hpre'. congruence.
Qed.

(** X1.  Every slug [getStaticPaths] enumerates comes from an entry of the
    content directory, and is either the entry's name as it is (the name
    has no [".mdx"]) or the name with its first [".mdx"], and only that
    one, cut out; and every entry gives such a slug. *)
Theorem enumerated_slug_shape (fs : filesystem) (files : gmap string string) :
  ∃ r, getStaticPaths (<["data/sketches" := Readable files]> fs) = Ok r ∧
    ∀ s, s ∈ slugs r ↔
      ∃ file, is_Some (files !! file) ∧
        ((JsString.includes file ".mdx" = false ∧ s = file) ∨
         (∃ pre post, file = pre +:+ ".mdx" +:+ post ∧
                      JsString.includes pre ".mdx" = false ∧ s = pre +:+ post)).
Proof.
  eexists. split; [apply getStaticPaths_readable|].
  intros s. rewrite (slugs_readable files _ _ eq_refl), list_elem_of_fmap.
  split.
  - intros (file & -> & Hin%elem_of_listing). exists file. split; [done|].
    destruct (JsString.includes file ".mdx") eqn:Hinc.
    + right. apply includes_first_mdx in Hinc as (pre & post & -> & Hpre).
      exists pre, post. by rewrite replace_first_mdx.
    + left. by rewrite replace_no_mdx.
  - intros (file & Hin & Hshape). exists file. split; [|by apply elem_of_listing].
    destruct Hshape as [[Hinc ->]|(pre & post & -> & Hpre & ->)].
    + by rewrite replace_no_mdx.
    + by rewrite replace_first_mdx.
Qed.

(** The commutation [post.mdx = .mdx post] only has the powers of the
    extension as solutions. *)
Lemma commutes_with_mdx (n : nat) (post : string) :
  String.length post ≤ n ->
  post +:+ ".mdx" = ".mdx" +:+ post -> ∃ k, post = mdx_power k.
Proof.
  revert post. induction n as [|n IH]; intros post Hlen Heq.
  - destruct post; [by exists 0 | simpl in Hlen; lia].
  - destruct post as [|a [|b [|c [|d post]]]];
      [by exists 0 | simplify_eq/= .. |].
    simpl in Heq. injection Heq as -> -> -> -> Heq.
    destruct (IH post) as [k ->]; [simpl in Hlen; lia | done |].
    by exists (S k).
Qed.

Lemma mdx_power_commutes (k : nat) :
  mdx_power k +:+ ".mdx" = ".mdx" +:+ mdx_power k.
Proof.
  induction k as [|k IH]; [done|].
  change (mdx_power (S k)) with (".mdx" +:+ mdx_power k).
  by rewrite app_assoc_s, IH.
Qed.

(** X2.  Appending [".mdx"] to the slug of an entry gives the entry's name
    back exactly when the name is a stem without [".mdx"] followed by one
    or more copies of [".mdx"]: [a.mdx] and [a.mdx.mdx] come back, [a] and
    [a.mdx.bak] do not. *)
Theorem slug_roundtrip_exactly (file : string) :
  JsString.replace file ".mdx" "" +:+ ".mdx" = file ↔
  ∃ stem k, file = stem +:+ mdx_power (S k) ∧
            JsString.includes stem ".mdx" = false.
Proof.
  split.
  - intros Hback.
    destruct (JsString.includes file ".mdx") eqn:Hinc.
    + apply includes_first_mdx in Hinc as (pre & post & -> & Hpre).
      rewrite replace_first_mdx, app_assoc_s in Hback by done.
      apply String.app_inj in Hback.
      destruct (commutes_with_mdx _ post (le_n _) Hback) as [k ->].
      by exists pre, k.
    + rewrite replace_no_mdx in Hback by done.
      apply (f_equal String.length) in Hback.
      rewrite length_app_s in Hback. simpl in Hback. lia.
  - intros (stem & k & -> & Hstem).
    change (mdx_power (S k)) with (".mdx" +:+ mdx_power k).
    rewrite replace_first_mdx, app_assoc_s by done.
    by rewrite mdx_power_commutes.
Qed.

(** ** The per-document pipeline, outcome by outcome *)

Lemma getStaticPaths_lookup (fs : filesystem) files :
  fs !! "data/sketches" = Some (Readable files) ->
  getStaticPaths fs =
    Ok {| paths := (fun file => {| params := {| slug := JsString.replace file ".mdx" "" |} |})
                     <$> (fst <$> map_to_list files);
          fallback := false |}.
Proof.
  intros Hdir. rewrite <- (insert_id fs "data/sketches" (Readable files)) by done.
  apply getStaticPaths_readable.
Qed.

Section Outcomes.

Context {FrontMatter MdxSource Minutes : Type}.
Variable matter : string -> result (FrontMatter * string).
Variable serialize : string -> result MdxSource.
Variable readingTime : string -> ReadingStats Minutes.

(** For a slug without separator, what [getStaticProps] does is decided by
    the content directory's search permission and its entry [<slug>.mdx]. *)
Lemma getStaticProps_directory (fs : filesystem) (d : directory) (s : string) :
  Path.has_sep s = false ->
  fs !! "data/sketches" = Some d ->
  getStaticProps matter serialize readingTime fs {| params := {| slug := s |} |} =
    if searchable d then
      match entries d !! (s +:+ ".mdx") with
      | Some (File text) => render matter serialize readingTime s text
      | Some Locked => Throw (FsError EACCES ("data/sketches/" +:+ s +:+ ".mdx"))
      | Some SubDirectory => Throw (ReadError EISDIR)
      | None => Throw (FsError ENOENT ("data/sketches/" +:+ s +:+ ".mdx"))
      end
    else Throw (FsError EACCES ("data/sketches/" +:+ s +:+ ".mdx")).
Proof.
  intros Hs Hdir. unfold getStaticProps. simpl slug.
  rewrite join_file_name by (by apply file_name_mdx).
  change ("data/sketches/" +:+ s +:+ ".mdx")
    with ("data/sketches" +:+ String Path.sep (s +:+ ".mdx")).
  unfold readFileSync. rewrite splitLast_app by (by rewrite has_sep_app, Hs).
  simpl. rewrite Hdir.
  destruct (searchable d); [|done].
  by destruct (entries d !! (s +:+ ".mdx")) as [[text| |]|].
Qed.

Lemma getStaticProps_lookup (fs : filesystem) files (s : string) :
  Path.has_sep s = false ->
  fs !! "data/sketches" = Some (Readable files) ->
  getStaticProps matter serialize readingTime fs {| params := {| slug := s |} |} =
    match files !! (s +:+ ".mdx") with
    | Some text => render matter serialize readingTime s text
    | None => Throw (FsError ENOENT ("data/sketches/" +:+ s +:+ ".mdx"))
    end.
Proof.
  intros Hs Hdir. rewrite <- (insert_id fs "data/sketches" (Readable files)) by done.
  by apply getStaticProps_readable.
Qed.

(** X3.  [getStaticProps] succeeds exactly when [<slug>.mdx] is in the
    content directory, the splitter accepts its text and the compiler
    accepts the body the splitter returns.  The props then hold the
    splitter's front matter, the slug as it was given, the compiled body
    and the reading time, the last two computed from the body without the
    front matter, not from the raw file. *)
Theorem getStaticProps_succeeds_iff
    (fs : filesystem) files (s : string) (r : StaticProps (FrontMatter := FrontMatter)) :
  Path.has_sep s = false ->
  fs !! "data/sketches" = Some (Readable files) ->
  getStaticProps matter serialize readingTime fs {| params := {| slug := s |} |} = Ok r ↔
  ∃ text fm content mdx,
    files !! (s +:+ ".mdx") = Some text ∧
    matter text = Ok (fm, content) ∧
    serialize content = Ok mdx ∧
    r = {| props := {| frontMatter := fm; props_slug := s; mdxSource := mdx;
                       readTime := minutes (readingTime content) |} |}.
Proof.
  intros Hs Hdir. rewrite (getStaticProps_lookup fs files) by done.
  unfold render. split.
  - destruct (files !! (s +:+ ".mdx")) as [text|]; [|done].
    destruct (matter text) as [[fm content]|e] eqn:Hm; simpl; [|done].
    destruct (serialize content) as [mdx|e] eqn:Hc; simpl; [|done].
    intros [= <-]. by exists text, fm, content, mdx.
  - intros (text & fm & content & mdx & -> & Hm & Hc & ->).
    rewrite Hm. simpl. by rewrite Hc.
Qed.

(** X4.  When [<slug>.mdx] is a regular file the process may read,
    [getStaticProps] throws exactly the splitter's error on the file's
    text or, when the splitter accepts the text, the compiler's error on
    the body the splitter returned: it catches neither and changes
    neither, and the splitter's error comes first. *)
Theorem getStaticProps_throws_iff
    (fs : filesystem) (d : directory) (s text : string) (e : exn) :
  Path.has_sep s = false ->
  fs !! "data/sketches" = Some d ->
  searchable d = true ->
  entries d !! (s +:+ ".mdx") = Some (File text) ->
  getStaticProps matter serialize readingTime fs {| params := {| slug := s |} |} = Throw e ↔
  matter text = Throw e ∨
  (∃ fm content, matter text = Ok (fm, content) ∧ serialize content = Throw e).
Proof.
  intros Hs Hdir Hsearch Hfile.
  rewrite (getStaticProps_directory fs d) by done.
  rewrite Hsearch, Hfile. unfold render. split.
  - destruct (matter text) as [[fm content]|e'] eqn:Hm; simpl.
    + destruct (serialize content) as [mdx|e'] eqn:Hc; simpl; [done|].
      intros [= <-]. right. by exists fm, content.
    + intros [= <-]. by left.
  - intros [Hm|(fm & content & Hm & Hc)]; rewrite Hm; simpl; [done|].
    by rewrite Hc.
Qed.


End Outcomes.

Lemma getStaticProps_succeeds_iff_witness :
  Path.has_sep "a" = false ∧
  ab_store !! "data/sketches" = Some (Readable {[ "a.mdx" := "# A"; "b.mdx" := "# B" ]}) ∧
  getStaticProps Matter.matter Ok ReadingTime.readingTime ab_store
      {| params := {| slug := "a" |} |}
    = Ok {| props := {| frontMatter := ∅; props_slug := "a"; mdxSource := "# A";
                        readTime := 1 |} |}.
Proof.
  split; [reflexivity|]. split; [reflexivity|].
  apply (proj2 (getStaticProps_succeeds_iff Matter.matter Ok ReadingTime.readingTime
                  ab_store {[ "a.mdx" := "# A"; "b.mdx" := "# B" ]} "a" _
                  eq_refl eq_refl)).
  exists "# A", ∅, "# A", "# A". repeat split; reflexivity.
Defined.

Lemma getStaticProps_throws_iff_witness :
  Path.has_sep "draft" = false ∧
  ({[ "data/sketches" := Readable {[ "draft.mdx" := "# Draft" ]} ]} : filesystem)
    !! "data/sketches" = Some (Readable {[ "draft.mdx" := "# Draft" ]}) ∧
  searchable (Readable {[ "draft.mdx" := "# Draft" ]}) = true ∧
  entries (Readable {[ "draft.mdx" := "# Draft" ]}) !! ("draft" +:+ ".mdx")
    = Some (File "# Draft") ∧
  getStaticProps Matter.matter (fun _ : string => @Throw string (CompileError "Chart"))
      ReadingTime.readingTime
      {[ "data/sketches" := Readable {[ "draft.mdx" := "# Draft" ]} ]}
      {| params := {| slug := "draft" |} |}
    = Throw (CompileError "Chart").
Proof.
  split; [reflexivity|]. split; [reflexivity|]. split; [reflexivity|].
  split; [reflexivity|].
  apply (getStaticProps_throws_iff Matter.matter
           (fun _ : string => @Throw string (CompileError "Chart"))
           ReadingTime.readingTime
           {[ "data/sketches" := Readable {[ "draft.mdx" := "# Draft" ]} ]}
           (Readable {[ "draft.mdx" := "# Draft" ]}) "draft" "# Draft");
    [reflexivity..|].
  right. exists ∅, "# Draft". split; reflexivity.
Defined.


(** ** Slugs as path segments *)

Lemma replace_has_sep (file : string) :
  Path.has_sep file = false ->
  Path.has_sep (JsString.replace file ".mdx" "") = false.
Proof.
  intros Hs. destruct (JsString.includes file ".mdx") eqn:Hinc.
  - apply includes_first_mdx in Hinc as (pre & post & -> & Hpre).
    rewrite replace_first_mdx by done.
    rewrite !has_sep_app in Hs. rewrite has_sep_app.
    apply orb_false_elim in Hs as [-> Hs]. by apply orb_false_elim in Hs as [_ ->].
  - by rewrite replace_no_mdx.
Qed.

Section Segments.

Context {FrontMatter MdxSource Minutes : Type}.
Variable matter : string -> result (FrontMatter * string).
Variable serialize : string -> result MdxSource.
Variable readingTime : string -> ReadingStats Minutes.

(** X6.  The entries of a directory have no separator in their names, and
    then none of the slugs [getStaticPaths] enumerates has one: the path
    [getStaticProps] builds for an enumerated route is
    [data/sketches/<slug>.mdx], with nothing normalised away, and its
    outcome is the same in every file system with the same content
    directory. *)
Theorem enumerated_routes_stay_in_store (fs : filesystem) files :
  (∀ file, is_Some (files !! file) -> Path.has_sep file = false) ->
  fs !! "data/sketches" = Some (Readable files) ->
  ∃ r, getStaticPaths fs = Ok r ∧
    ∀ entry, entry ∈ paths r ->
      Path.has_sep (slug (params entry)) = false ∧
      Path.join ["data/sketches"; slug (params entry) +:+ ".mdx"]
        = "data/sketches/" +:+ slug (params entry) +:+ ".mdx" ∧
      ∀ fs' : filesystem,
        fs' !! "data/sketches" = Some (Readable files) ->
        getStaticProps matter serialize readingTime fs' entry
          = getStaticProps matter serialize readingTime fs entry.
Proof.
  intros Hnames Hdir. eexists. split; [by apply getStaticPaths_lookup|].
  simpl paths. intros entry (file & -> & Hin%elem_of_listing)%list_elem_of_fmap.
  simpl slug.
  assert (Path.has_sep (JsString.replace file ".mdx" "") = false) as Hslug
    by (by apply replace_has_sep, Hnames).
  split; [done|]. split; [by apply join_file_name, file_name_mdx|].
  intros fs' Hdir'.
  by rewrite (getStaticProps_lookup _ _ _ fs' files),
             (getStaticProps_lookup _ _ _ fs files) by done.
Qed.

(** X7.  [getStaticProps] does not check the slug: a slug that starts with
    [../] leaves the content directory, because [path.join] resolves the
    [..] segment.  For the slug [../<name>] the path is [data/<name>.mdx]
    and the text rendered is that of the entry [<name>.mdx] of [data]. *)
Theorem parent_slug_leaves_store (fs : filesystem) files (name : string) :
  Path.has_sep name = false ->
  fs !! "data" = Some (Readable files) ->
  Path.join ["data/sketches"; ("../" +:+ name) +:+ ".mdx"] = "data/" +:+ name +:+ ".mdx" ∧
  getStaticProps matter serialize readingTime fs {| params := {| slug := "../" +:+ name |} |} =
    match files !! (name +:+ ".mdx") with
    | Some text => render matter serialize readingTime ("../" +:+ name) text
    | None => Throw (FsError ENOENT ("data/" +:+ name +:+ ".mdx"))
    end.
Proof.
  intros Hs Hdir.
  destruct (file_name_mdx name Hs) as (Hsep & Hne & Hdot & Hdots).
  assert (Path.join ["data/sketches"; ("../" +:+ name) +:+ ".mdx"]
          = "data/" +:+ name +:+ ".mdx") as Hjoin.
  { unfold Path.join. rewrite !filter_cons, filter_nil.
    rewrite decide_True by done.
    rewrite (decide_True (P := ("../" +:+ name) +:+ ".mdx" ≠ "")) by done.
    change (JsString.join ["data/sketches"; ("../" +:+ name) +:+ ".mdx"] Path.sep)
      with ("data/sketches/../" +:+ name +:+ ".mdx").
    unfold Path.normalize.
    rewrite decide_False by (by apply app_not_empty).
    rewrite endsWith_app_no_sep by done.
    replace (JsString.split ("data/sketches/../" +:+ name +:+ ".mdx") Path.sep)
      with ["data"; "sketches"; ".."; name +:+ ".mdx"]
      by (simpl; by rewrite split_no_sep).
    replace (Path.normalizeSegments
               (negb (JsString.startsWith ("data/sketches/../" +:+ name +:+ ".mdx") "/"))
               ["data"; "sketches"; ".."; name +:+ ".mdx"])
      with ["data"; name +:+ ".mdx"].
    - reflexivity.
    - unfold Path.normalizeSegments, Path.push. simpl.
      rewrite (decide_False (P := name +:+ ".mdx" = "" ∨ name +:+ ".mdx" = "."))
        by (by intros [?|?]).
      by rewrite (decide_False (P := name +:+ ".mdx" = "..")) by done. }
  split; [exact Hjoin|].
  change (getStaticProps matter serialize readingTime fs
            {| params := {| slug := "../" +:+ name |} |})
    with (readFileSync fs (Path.join ["data/sketches"; ("../" +:+ name) +:+ ".mdx"])
          ≫= render matter serialize readingTime ("../" +:+ name)).
  rewrite Hjoin.
  change ("data/" +:+ name +:+ ".mdx") with ("data" +:+ String Path.sep (name +:+ ".mdx")).
  rewrite (readFileSync_file _ _ _ files) by done.
  by destruct (files !! (name +:+ ".mdx")).
Qed.

(** X8.  An entry of the content directory whose name has no [".mdx"] is
    enumerated under its own name, and its page cannot be generated unless
    a second entry [<name>.mdx] exists: [getStaticProps] throws ENOENT for
    [data/sketches/<name>.mdx]. *)
Theorem stray_entry_breaks_its_page (fs : filesystem) files (name text : string) :
  files !! name = Some text ->
  Path.has_sep name = false ->
  JsString.includes name ".mdx" = false ->
  files !! (name +:+ ".mdx") = None ->
  ∃ r, getStaticPaths (<["data/sketches" := Readable files]> fs) = Ok r ∧
       {| params := {| slug := name |} |} ∈ paths r ∧
       getStaticProps matter serialize readingTime
           (<["data/sketches" := Readable files]> fs) {| params := {| slug := name |} |}
         = Throw (FsError ENOENT ("data/sketches/" +:+ name +:+ ".mdx")).
Proof.
  intros Hfile Hs Hinc Hnone.
  eexists. split; [apply getStaticPaths_readable|]. simpl paths. split.
  - apply list_elem_of_fmap. exists name. split; [by rewrite replace_no_mdx|].
    apply elem_of_listing. by exists text.
  - by rewrite getStaticProps_readable, Hnone by done.
Qed.

End Segments.

Lemma enumerated_routes_stay_in_store_witness :
  (∀ file,
     is_Some (({[ "a.mdx" := "# A"; "b.mdx" := "# B" ]} : gmap string string) !! file) ->
     Path.has_sep file = false) ∧
  ab_store !! "data/sketches" = Some (Readable {[ "a.mdx" := "# A"; "b.mdx" := "# B" ]}) ∧
  ∃ r, getStaticPaths ab_store = Ok r ∧
    ∀ entry, entry ∈ paths r ->
      Path.has_sep (slug (params entry)) = false ∧
      Path.join ["data/sketches"; slug (params entry) +:+ ".mdx"]
        = "data/sketches/" +:+ slug (params entry) +:+ ".mdx" ∧
      ∀ fs' : filesystem,
        fs' !! "data/sketches" = Some (Readable {[ "a.mdx" := "# A"; "b.mdx" := "# B" ]}) ->
        getStaticProps Matter.matter Ok ReadingTime.readingTime fs' entry
          = getStaticProps Matter.matter Ok ReadingTime.readingTime ab_store entry.
Proof.
  assert (∀ file,
     is_Some (({[ "a.mdx" := "# A"; "b.mdx" := "# B" ]} : gmap string string) !! file) ->
     Path.has_sep file = false) as Hnames.
  { intros file [text Hfile].
    apply lookup_insert_Some in Hfile as [[<- _]|[_ Hfile]]; [reflexivity|].
    apply lookup_singleton_Some in Hfile as [<- _]. reflexivity. }
  split; [exact Hnames|]. split; [reflexivity|].
  apply (enumerated_routes_stay_in_store Matter.matter Ok ReadingTime.readingTime
           ab_store {[ "a.mdx" := "# A"; "b.mdx" := "# B" ]} Hnames).
  reflexivity.
Defined.

Lemma parent_slug_leaves_store_witness :
  Path.has_sep "secret" = false ∧
  ({[ "data" := Readable {[ "secret.mdx" := "# S" ]} ]} : filesystem) !! "data"
    = Some (Readable {[ "secret.mdx" := "# S" ]}) ∧
  Path.join ["data/sketches"; ("../" +:+ "secret") +:+ ".mdx"] = "data/secret.mdx" ∧
  getStaticProps Matter.matter Ok ReadingTime.readingTime
      {[ "data" := Readable {[ "secret.mdx" := "# S" ]} ]}
      {| params := {| slug := "../secret" |} |}
    = render Matter.matter Ok ReadingTime.readingTime "../secret" "# S".
Proof.
  split; [reflexivity|]. split; [reflexivity|].
  exact (parent_slug_leaves_store Matter.matter Ok ReadingTime.readingTime
           {[ "data" := Readable {[ "secret.mdx" := "# S" ]} ]}
           {[ "secret.mdx" := "# S" ]} "secret" eq_refl eq_refl).
Defined.

Lemma stray_entry_breaks_its_page_witness :
  ({[ "README" := "read me"; "a.mdx" := "# A" ]} : gmap string string) !! "README"
    = Some "read me" ∧
  Path.has_sep "README" = false ∧
  JsString.includes "README" ".mdx" = false ∧
  ({[ "README" := "read me"; "a.mdx" := "# A" ]} : gmap string string)
    !! ("README" +:+ ".mdx") = None ∧
  ∃ r, getStaticPaths
         {[ "data/sketches" := Readable {[ "README" := "read me"; "a.mdx" := "# A" ]} ]}
       = Ok r ∧
       {| params := {| slug := "README" |} |} ∈ paths r ∧
       getStaticProps Matter.matter Ok ReadingTime.readingTime
           {[ "data/sketches" := Readable {[ "README" := "read me"; "a.mdx" := "# A" ]} ]}
           {| params := {| slug := "README" |} |}
         = Throw (FsError ENOENT "data/sketches/README.mdx").
Proof.
  split; [reflexivity|]. split; [reflexivity|]. split; [reflexivity|].
  split; [reflexivity|].
  apply (stray_entry_breaks_its_page Matter.matter Ok ReadingTime.readingTime
           ∅ {[ "README" := "read me"; "a.mdx" := "# A" ]} "README" "read me");
    reflexivity.
Defined.

(** ** Routes and the contents of the files *)

Lemma listing_Permutation (files1 files2 : gmap string string) :
  dom files1 = dom files2 ->
  fst <$> map_to_list files1 ≡ₚ fst <$> map_to_list files2.
Proof.
  intros Hdom. apply NoDup_Permutation; [apply NoDup_fst_map_to_list..|].
  intros name. by rewrite !elem_of_listing, <- !elem_of_dom, Hdom.
Qed.

(** X9.  The routes depend on the names in the content directory only:
    two stores with the same set of names give the same path entries (up
    to the order of the listing), whatever the files contain; editing a
    document never adds or removes a route. *)
Theorem routes_depend_on_names_only
    (fs1 fs2 : filesystem) (files1 files2 : gmap string string) :
  dom files1 = dom files2 ->
  ∃ r1 r2,
    getStaticPaths (<["data/sketches" := Readable files1]> fs1) = Ok r1 ∧
    getStaticPaths (<["data/sketches" := Readable files2]> fs2) = Ok r2 ∧
    paths r1 ≡ₚ paths r2 ∧ slugs r1 ≡ₚ slugs r2 ∧ fallback r1 = fallback r2.
Proof.
  intros Hdom%listing_Permutation.
  eexists _, _. split; [apply getStaticPaths_readable|].
  split; [apply getStaticPaths_readable|].
  unfold slugs. simpl. by rewrite Hdom.
Qed.

Lemma routes_depend_on_names_only_witness :
  dom ({[ "a.mdx" := "# A"; "b.mdx" := "# B" ]} : gmap string string)
    = dom ({[ "a.mdx" := unterminated; "b.mdx" := "" ]} : gmap string string) ∧
  ∃ r1 r2,
    getStaticPaths ab_store = Ok r1 ∧
    getStaticPaths
      (<["data/sketches" := Readable {[ "a.mdx" := unterminated; "b.mdx" := "" ]}]> ∅)
      = Ok r2 ∧
    paths r1 ≡ₚ paths r2 ∧ slugs r1 ≡ₚ slugs r2 ∧ fallback r1 = fallback r2.
Proof.
  assert (dom ({[ "a.mdx" := "# A"; "b.mdx" := "# B" ]} : gmap string string)
    = dom ({[ "a.mdx" := unterminated; "b.mdx" := "" ]} : gmap string string)) as Hdom.
  { by rewrite !dom_insert_L, !dom_singleton_L. }
  split; [exact Hdom|].
  apply (routes_depend_on_names_only ∅ ∅ _ _ Hdom).
Defined.

(** ** The page component *)

(** X10.  The [meta] object that [Post] builds reads, at every key, as the
    front matter itself: the [title] and [description] listed before the
    spread never change a value, they only make these two keys exist
    (holding [undefined]) when the front matter lacks them. *)
Theorem meta_reads_as_frontMatter {V : Type} (frontMatter : gmap string V) :
  (∀ k, propU (meta frontMatter) k = prop frontMatter k) ∧
  dom (meta frontMatter) = dom frontMatter ∪ {[ "title"; "description" ]}.
Proof.
  unfold meta, spread. split.
  - intros k. unfold propU, prop. rewrite lookup_union, lookup_fmap.
    destruct (frontMatter !! k) as [v|] eqn:Hk; simpl.
    + by rewrite union_Some_l.
    + rewrite (left_id_L None _).
      destruct (decide (k = "description")) as [->|Hd].
      { rewrite lookup_insert_eq. unfold prop. by rewrite Hk. }
      rewrite lookup_insert_ne by done.
      destruct (decide (k = "title")) as [->|Ht].
      { rewrite lookup_insert_eq. unfold prop. by rewrite Hk. }
      by rewrite lookup_insert_ne.
  - rewrite dom_union_L, dom_fmap_L, !dom_insert_L, dom_empty_L. set_solver.
Qed.

(** ** Two entries with one slug *)

Lemma fmap_collision_not_NoDup {A B : Type} (f : A -> B) (l : list A) (x y : A) :
  x ∈ l -> y ∈ l -> x ≠ y -> f x = f y -> ¬ NoDup (f <$> l).
Proof.
  intros [i Hi]%list_elem_of_lookup [j Hj]%list_elem_of_lookup Hne Heq Hnd.
  assert (i = j) as ->.
  { apply (NoDup_lookup (f <$> l) i j (f x)); [done|..].
    - by rewrite list_lookup_fmap, Hi.
    - by rewrite list_lookup_fmap, Hj, Heq. }
  congruence.
Qed.

Section Shadowing.

Context {FrontMatter MdxSource Minutes : Type}.
Variable matter : string -> result (FrontMatter * string).
Variable serialize : string -> result MdxSource.
Variable readingTime : string -> ReadingStats Minutes.

(** X11.  When the content directory holds both [<name>] and [<name>.mdx]
    ([name] without [".mdx"]), the two entries get the same slug, so the
    enumerated slugs have a duplicate, and the page generated for that
    slug is always the one of [<name>.mdx]: the text of [<name>] is never
    read. *)
Theorem extensionless_twin_is_shadowed
    (fs : filesystem) files (name plain doc : string) :
  files !! name = Some plain ->
  files !! (name +:+ ".mdx") = Some doc ->
  Path.has_sep name = false ->
  JsString.includes name ".mdx" = false ->
  ∃ r, getStaticPaths (<["data/sketches" := Readable files]> fs) = Ok r ∧
       JsString.replace name ".mdx" "" = name ∧
       JsString.replace (name +:+ ".mdx") ".mdx" "" = name ∧
       ¬ NoDup (slugs r) ∧
       getStaticProps matter serialize readingTime
           (<["data/sketches" := Readable files]> fs) {| params := {| slug := name |} |}
         = render matter serialize readingTime name doc.
Proof.
  intros Hplain Hdoc Hs Hinc.
  eexists. split; [apply getStaticPaths_readable|].
  split; [by apply replace_no_mdx|]. split; [by apply replace_stem|]. split.
  - rewrite (slugs_readable files _ _ eq_refl).
    apply (fmap_collision_not_NoDup _ _ name (name +:+ ".mdx")).
    + apply elem_of_listing. by exists plain.
    + apply elem_of_listing. by exists doc.
    + intros Heq. apply (f_equal String.length) in Heq.
      rewrite length_app_s in Heq. simpl in Heq. lia.
    + by rewrite replace_no_mdx, replace_stem.
  - by rewrite getStaticProps_readable, Hdoc by done.
Qed.

End Shadowing.

Lemma extensionless_twin_is_shadowed_witness :
  ({[ "notes" := "todo"; "notes.mdx" := "# Notes" ]} : gmap string string) !! "notes"
    = Some "todo" ∧
  ({[ "notes" := "todo"; "notes.mdx" := "# Notes" ]} : gmap string string)
    !! ("notes" +:+ ".mdx") = Some "# Notes" ∧
  Path.has_sep "notes" = false ∧
  JsString.includes "notes" ".mdx" = false ∧
  ∃ r, getStaticPaths notes_store = Ok r ∧
       JsString.replace "notes" ".mdx" "" = "notes" ∧
       JsString.replace ("notes" +:+ ".mdx") ".mdx" "" = "notes" ∧
       ¬ NoDup (slugs r) ∧
       getStaticProps Matter.matter Ok ReadingTime.readingTime notes_store
           {| params := {| slug := "notes" |} |}
         = render Matter.matter Ok ReadingTime.readingTime "notes" "# Notes".
Proof.
  split; [reflexivity|]. split; [reflexivity|]. split; [reflexivity|].
  split; [reflexivity|].
  exact (extensionless_twin_is_shadowed Matter.matter Ok ReadingTime.readingTime
           ∅ {[ "notes" := "todo"; "notes.mdx" := "# Notes" ]} "notes" "todo" "# Notes"
           eq_refl eq_refl eq_refl eq_refl).
Defined.

(** ** Permissions and kinds of entries *)

Lemma elem_of_names {A : Type} (m : gmap string A) (name : string) :
  name ∈ fst <$> map_to_list m ↔ is_Some (m !! name).
Proof.
  rewrite list_elem_of_fmap. split.
  - intros ([n x] & -> & Hin). apply elem_of_map_to_list in Hin. by exists x.
  - intros [x Hin]. exists (name, x). split; [done|].
    by apply elem_of_map_to_list.
Qed.

Section Permissions.

Context {FrontMatter MdxSource Minutes : Type}.
Variable matter : string -> result (FrontMatter * string).
Variable serialize : string -> result MdxSource.
Variable readingTime : string -> ReadingStats Minutes.

(** X12.  The two functions need different permissions on the content
    directory.  When the process may search it but not list it,
    [getStaticPaths] throws EACCES, yet [getStaticProps] for a document
    that is there reads and renders it as in a directory it may list. *)
Theorem unlistable_store_still_serves
    (fs : filesystem) (d : directory) (s text : string) :
  Path.has_sep s = false ->
  fs !! "data/sketches" = Some d ->
  listable d = false ->
  searchable d = true ->
  entries d !! (s +:+ ".mdx") = Some (File text) ->
  getStaticPaths fs = Throw (FsError EACCES "data/sketches") ∧
  getStaticProps matter serialize readingTime fs {| params := {| slug := s |} |}
    = render matter serialize readingTime s text.
Proof.
  intros Hs Hdir Hlist Hsearch Hfile. split.
  - unfold getStaticPaths, readdirSync.
    change (Path.join ["data/sketches"]) with "data/sketches".
    by rewrite Hdir, Hlist.
  - by rewrite (getStaticProps_directory _ _ _ fs d), Hsearch, Hfile by done.
Qed.

(** X13.  [getStaticPaths] does not tell files from sub-directories: a
    sub-directory [<name>.mdx] of the content directory is enumerated as
    the route [<name>], and [getStaticProps] for that route throws EISDIR
    when it reads it. *)
Theorem subdirectory_entry_throws_EISDIR
    (fs : filesystem) (d : directory) (s : string) :
  Path.has_sep s = false ->
  JsString.includes s ".mdx" = false ->
  fs !! "data/sketches" = Some d ->
  listable d = true ->
  searchable d = true ->
  entries d !! (s +:+ ".mdx") = Some SubDirectory ->
  ∃ r, getStaticPaths fs = Ok r ∧
       {| params := {| slug := s |} |} ∈ paths r ∧
       getStaticProps matter serialize readingTime fs {| params := {| slug := s |} |}
         = Throw (ReadError EISDIR).
Proof.
  intros Hs Hinc Hdir Hlist Hsearch Hentry.
  eexists. split.
  { unfold getStaticPaths, readdirSync.
    change (Path.join ["data/sketches"]) with "data/sketches".
    rewrite Hdir, Hlist. reflexivity. }
  simpl paths. split.
  - apply list_elem_of_fmap. exists (s +:+ ".mdx").
    split; [by rewrite replace_stem|].
    apply elem_of_names. by rewrite Hentry.
  - by rewrite (getStaticProps_directory _ _ _ fs d), Hsearch, Hentry by done.
Qed.

End Permissions.

Lemma unlistable_store_still_serves_witness :
  Path.has_sep "a" = false ∧
  ({[ "data/sketches" :=
        {| listable := false; searchable := true;
           entries := {[ "a.mdx" := File "# A" ]} |} ]} : filesystem) !! "data/sketches"
    = Some {| listable := false; searchable := true;
              entries := {[ "a.mdx" := File "# A" ]} |} ∧
  getStaticPaths
      {[ "data/sketches" :=
           {| listable := false; searchable := true;
              entries := {[ "a.mdx" := File "# A" ]} |} ]}
    = Throw (FsError EACCES "data/sketches") ∧
  getStaticProps Matter.matter Ok ReadingTime.readingTime
      {[ "data/sketches" :=
           {| listable := false; searchable := true;
              entries := {[ "a.mdx" := File "# A" ]} |} ]}
      {| params := {| slug := "a" |} |}
    = render Matter.matter Ok ReadingTime.readingTime "a" "# A".
Proof.
  split; [reflexivity|]. split; [reflexivity|].
  exact (unlistable_store_still_serves Matter.matter Ok ReadingTime.readingTime
           {[ "data/sketches" :=
                {| listable := false; searchable := true;
                   entries := {[ "a.mdx" := File "# A" ]} |} ]}
           {| listable := false; searchable := true;
              entries := {[ "a.mdx" := File "# A" ]} |}
           "a" "# A" eq_refl eq_refl eq_refl eq_refl eq_refl).
Defined.

Lemma subdirectory_entry_throws_EISDIR_witness :
  Path.has_sep "sub" = false ∧
  JsString.includes "sub" ".mdx" = false ∧
  ({[ "data/sketches" :=
        {| listable := true; searchable := true;
           entries := {[ "sub.mdx" := SubDirectory; "a.mdx" := File "# A" ]} |} ]}
     : filesystem) !! "data/sketches"
    = Some {| listable := true; searchable := true;
              entries := {[ "sub.mdx" := SubDirectory; "a.mdx" := File "# A" ]} |} ∧
  ∃ r, getStaticPaths
         {[ "data/sketches" :=
              {| listable := true; searchable := true;
                 entries := {[ "sub.mdx" := SubDirectory; "a.mdx" := File "# A" ]} |} ]}
       = Ok r ∧
       {| params := {| slug := "sub" |} |} ∈ paths r ∧
       getStaticProps Matter.matter Ok ReadingTime.readingTime
           {[ "data/sketches" :=
                {| listable := true; searchable := true;
                   entries := {[ "sub.mdx" := SubDirectory; "a.mdx" := File "# A" ]} |} ]}
           {| params := {| slug := "sub" |} |}
         = Throw (ReadError EISDIR).
Proof.
  split; [reflexivity|]. split; [reflexivity|]. split; [reflexivity|].
  exact (subdirectory_entry_throws_EISDIR Matter.matter Ok ReadingTime.readingTime
           {[ "data/sketches" :=
                {| listable := true; searchable := true;
                   entries := {[ "sub.mdx" := SubDirectory; "a.mdx" := File "# A" ]} |} ]}
           {| listable := true; searchable := true;
              entries := {[ "sub.mdx" := SubDirectory; "a.mdx" := File "# A" ]} |}
           "sub" eq_refl eq_refl eq_refl eq_refl eq_refl eq_refl).
Defined.
